(** * Machine controller (pkg/platform/controller/machine/machine_controller.go)

    A shallow embedding of the TKE machine controller: the informer
    callbacks, the work-queue worker step, the phase dispatch of
    [reconcile], the create and update handlers, and the health-check
    scheduler with its registry of watched keys.

    The controller is sequential Go code that talks to external
    collaborators (informer cache, remote store, provider registry,
    deleter, downstream cluster client, work queue).  Those collaborators
    are kept abstract: each one is a transition on an abstract [World],
    and every call the controller makes is recorded, in order, in the
    state.  The controller's own fields ([healthCache]) and its log lines
    are explicit state. *)

From Stdlib Require Import Ascii.
From stdpp Require Import base option list strings gmap.

Local Open Scope string_scope.
Local Open Scope list_scope.

(** ** Errors *)

(** A Go [error] value.  The controller only ever asks two things of an
    error: whether [apierrors.IsNotFound] holds of it and its [Error()]
    text; [fmt.Errorf("...: %w", err)] wraps one. *)
Inductive error : Type :=
| ErrNotFound (msg : string)
| ErrOther (msg : string)
| ErrWrap (prefix : string) (inner : error).

Fixpoint Error (e : error) : string :=
  match e with
  | ErrNotFound msg => msg
  | ErrOther msg => msg
  | ErrWrap prefix inner => prefix +:+ Error inner
  end.

(** [apierrors.IsNotFound(err)]; a nil error is not a not-found error.
    The controller never applies it to a wrapped error. *)
Definition IsNotFound (err : option error) : bool :=
  match err with
  | Some (ErrNotFound _) => true
  | _ => false
  end.

(** ** Data model (api/platform/v1) *)

Definition MachinePhase : Type := string.

(** Modelled from the spec: the four phase constants of platformv1, whose
    declaration is outside this file; the phase is a plain string in Go. *)
Definition MachineInitializing : MachinePhase := "Initializing".
Definition MachineRunning : MachinePhase := "Running".
Definition MachineFailed : MachinePhase := "Failed".
Definition MachineTerminating : MachinePhase := "Terminating".

Inductive ConditionStatus : Type := ConditionTrue | ConditionFalse | ConditionUnknown.

Record MachineCondition : Type := mkCondition {
  Type_ : string;
  Status_ : ConditionStatus;
  Reason : string;
  Message : string
}.

(** Modelled from the spec: the fields of the machine spec (type, owning
    cluster name, target network address, provider-specific parameters);
    the controller reads [Type], [ClusterName] and [IP] only. *)
Record MachineSpec : Type := mkSpec {
  SpecType : string;
  ClusterName : string;
  IP : string;
  ProviderParams : list (string * string)
}.

Record MachineStatus : Type := mkStatus {
  Phase : MachinePhase;
  Conditions : list MachineCondition
}.

Record Machine : Type := mkMachine {
  Namespace : string;
  Name : string;
  Spec : MachineSpec;
  Status : MachineStatus
}.

Global Instance ConditionStatus_eq_dec : EqDecision ConditionStatus.
Proof. solve_decision. Defined.
Global Instance MachineCondition_eq_dec : EqDecision MachineCondition.
Proof. solve_decision. Defined.
Global Instance MachineSpec_eq_dec : EqDecision MachineSpec.
Proof. solve_decision. Defined.
Global Instance MachineStatus_eq_dec : EqDecision MachineStatus.
Proof. solve_decision. Defined.
Global Instance Machine_eq_dec : EqDecision Machine.
Proof. solve_decision. Defined.

(** [machine.Status.Phase = p] through the pointer. *)
Definition setPhase (p : MachinePhase) (m : Machine) : Machine :=
  {| Namespace := Namespace m; Name := Name m; Spec := Spec m;
     Status := {| Phase := p; Conditions := Conditions (Status m) |} |}.

(** Modelled from the spec: [Machine.SetCondition], declared with the API
    types.  Conditions are keyed by type: a condition whose type is already
    present is replaced where it stands, otherwise it is appended. *)
Definition hasCondition (ty : string) (cs : list MachineCondition) : bool :=
  existsb (fun c => bool_decide (Type_ c = ty)) cs.

Definition SetCondition (newCondition : MachineCondition) (m : Machine) : Machine :=
  let cs := Conditions (Status m) in
  let cs' :=
    if hasCondition (Type_ newCondition) cs
    then map (fun c => if bool_decide (Type_ c = Type_ newCondition)
                       then newCondition else c) cs
    else cs ++ [newCondition] in
  {| Namespace := Namespace m; Name := Name m; Spec := Spec m;
     Status := {| Phase := Phase (Status m); Conditions := cs' |} |}.

(** Reading a condition back by its type (first entry of that type). *)
Definition getCondition (ty : string) (m : Machine) : option MachineCondition :=
  List.find (fun c => bool_decide (Type_ c = ty)) (Conditions (Status m)).

(** [reflect.DeepEqual] on two specs: structural equality. *)
Definition DeepEqual (a b : MachineSpec) : bool := bool_decide (a = b).

(** ** Constants of the controller *)

Definition conditionTypeHealthCheck : string := "HealthCheck".
Definition failedHealthCheckReason : string := "FailedHealthCheck".

(** ** Keys (client-go cache package) *)

(** [strings.Split(key, "/")]. *)
Fixpoint Split (s : string) : list string :=
  match s with
  | EmptyString => [""]
  | String c rest =>
      if Ascii.eqb c "/"%char then "" :: Split rest
      else match Split rest with
           | [] => [String c ""]
           | p :: ps => String c p :: ps
           end
  end.

(** The double quote and the backslash. *)
Definition doubleQuote : ascii := ascii_of_nat 34.
Definition backslash : ascii := ascii_of_nat 92.

(** The two lowercase hexadecimal digits of a byte. *)
Definition hexDigit (n : nat) : ascii :=
  match String.get n "0123456789abcdef" with
  | Some c => c
  | None => "0"%char
  end.

Definition hexByte (c : ascii) : string :=
  String (hexDigit (nat_of_ascii c / 16))
    (String (hexDigit (nat_of_ascii c mod 16)) "").

(** One byte as [strconv.Quote] writes it: quote and backslash are
    escaped, printable ASCII stands for itself, the control characters
    with a short escape use it, every other byte is written [\xhh]. *)
Definition quoteByte (c : ascii) : string :=
  let n := nat_of_ascii c in
  if bool_decide (c = doubleQuote) then String backslash (String doubleQuote "")
  else if bool_decide (c = backslash) then String backslash (String backslash "")
  else if bool_decide (32 <= n <= 126) then String c ""
  else if bool_decide (n = 7) then String backslash "a"
  else if bool_decide (n = 8) then String backslash "b"
  else if bool_decide (n = 12) then String backslash "f"
  else if bool_decide (n = 10) then String backslash "n"
  else if bool_decide (n = 13) then String backslash "r"
  else if bool_decide (n = 9) then String backslash "t"
  else if bool_decide (n = 11) then String backslash "v"
  else String backslash (String "x" (hexByte c)).

Fixpoint quoteBytes (s : string) : string :=
  match s with
  | EmptyString => ""
  | String c rest => quoteByte c +:+ quoteBytes rest
  end.

(** [strconv.Quote], which [%q] applies to a string, on a key of ASCII
    bytes (the keys of Kubernetes objects are).  A byte above 0x7f is
    written as Go writes a byte that is not valid UTF-8; multi-byte runes
    are not decoded here. *)
Definition Quote (s : string) : string :=
  String doubleQuote (quoteBytes s +:+ String doubleQuote "").

(** The keys the quoting above is exact for. *)
Fixpoint isASCII (s : string) : bool :=
  match s with
  | EmptyString => true
  | String c rest => bool_decide (nat_of_ascii c < 128) && isASCII rest
  end.

(** [cache.SplitMetaNamespaceKey]: one part is a bare name, two parts are
    namespace and name, anything else is the error
    [fmt.Errorf("unexpected key format: %q", key)]. *)
Definition SplitMetaNamespaceKey (key : string) : string * string * option error :=
  match Split key with
  | [name] => ("", name, None)
  | [namespace; name] => (namespace, name, None)
  | _ => ("", "", Some (ErrOther ("unexpected key format: " +:+ Quote key)))
  end.

(** [cache.DeletionHandlingMetaNamespaceKeyFunc] on a machine object:
    [namespace/name], or the bare name when the namespace is empty.  The
    accessor never fails on a [*Machine]. *)
Definition DeletionHandlingMetaNamespaceKeyFunc (obj : Machine) : string * option error :=
  if bool_decide (Namespace obj = "")
  then (Name obj, None)
  else (Namespace obj +:+ "/" +:+ Name obj, None).

(** ** Calls to collaborators, in the order the controller makes them *)

Inductive Call : Type :=
| CallQueueGet
| CallQueueAdd (key : string)
| CallQueueForget (key : string)
| CallQueueAddRateLimited (key : string)
| CallQueueDone (key : string)
| CallListerGet (name : string)
| CallGetProvider (machineType : string)
| CallGetClusterByName (clusterName : string)
| CallOnCreate (machine : Machine)
| CallOnUpdate (machine : Machine)
| CallUpdate (machine : Machine)
| CallPatch (name : string) (patchBytes : list Byte.byte)
| CallDelete (key : string)
| CallGoPollHealth (key : string)
| CallBuildExternalClientSet (clusterName : string)
| CallNodesGet (ip : string)
| CallGetPatchBytes (oldMachine newMachine : Machine).

Definition isProviderHook (c : Call) : bool :=
  match c with
  | CallOnCreate _ | CallOnUpdate _ => true
  | _ => false
  end.

Definition isHealthLoopStart (c : Call) : bool :=
  match c with
  | CallGoPollHealth _ => true
  | _ => false
  end.

Definition startsHealthLoopFor (key : string) (c : Call) : bool :=
  match c with
  | CallGoPollHealth k => bool_decide (k = key)
  | _ => false
  end.

(** ** The controller over abstract collaborators *)

Section Controller.

(** [World] is everything outside the controller: the informer cache, the
    remote store, the infrastructure behind the providers, the queue. *)
Context {World Cluster Clientset : Type}.

(** [machineprovider.Provider]: hooks mutate the machine they are handed
    (the result carries the machine as the hook left it) and report an
    error or nil. *)
Record Provider : Type := mkProvider {
  OnCreate : Machine -> Cluster -> World -> Machine * option error * World;
  OnUpdate : Machine -> Cluster -> World -> Machine * option error * World
}.

Record Collaborators : Type := mkCollaborators {
  (* workqueue.RateLimitingInterface *)
  queueGet : World -> string * bool * World;
  queueAdd : string -> World -> World;
  queueForget : string -> World -> World;
  queueAddRateLimited : string -> World -> World;
  queueDone : string -> World -> World;
  (* platformv1lister.MachineLister *)
  listerGet : string -> World -> (Machine + error) * World;
  (* machineprovider.GetProvider *)
  GetProvider : string -> World -> (Provider + error) * World;
  (* typesv1.GetClusterByName *)
  GetClusterByName : string -> World -> (Cluster + error) * World;
  (* platformClient.Machines().Update / Patch; the returned object is
     discarded by the controller *)
  MachinesUpdate : Machine -> World -> option error * World;
  MachinesPatch : string -> list Byte.byte -> World -> option error * World;
  (* deletion.MachineDeleterInterface *)
  deleterDelete : string -> World -> option error * World;
  (* util.BuildExternalClientSetWithName and clientset.CoreV1().Nodes().Get *)
  BuildExternalClientSetWithName : string -> World -> (Clientset + error) * World;
  NodesGet : Clientset -> string -> World -> option error * World;
  (* strategicpatch.GetPatchBytes *)
  GetPatchBytes : Machine -> Machine -> World -> (list Byte.byte + error) * World
}.

(** The controller's state together with the world it acts on:
    [healthCache] is the [mapset.Set] field, [calls] the collaborator
    calls made so far (oldest first), [logs] the messages written to the
    logger and to [HandleError]. *)
Record State : Type := mkState {
  world : World;
  healthCache : gset string;
  calls : list Call;
  logs : list string
}.

(** Computations of the controller: a state transformer that may fail to
    finish within its fuel ([None]). *)
Definition M (A : Type) : Type := State -> option (A * State).

Definition ret {A} (a : A) : M A := fun s => Some (a, s).

Definition bind {A B} (m : M A) (k : A -> M B) : M B :=
  fun s => match m s with
           | Some (a, s') => k a s'
           | None => None
           end.

Definition outOfFuel {A} : M A := fun _ => None.

Notation "'let*' x ':=' m 'in' k" := (bind m (fun x => k))
  (at level 10, x pattern, m at level 100, k at level 200).
Notation "m ;;; k" := (bind m (fun _ => k))
  (at level 100, right associativity).

(** A call to a collaborator: recorded, then run on the world. *)
Definition call {R} (c : Call) (f : World -> R * World) : M R :=
  fun s =>
    let '(r, w) := f (world s) in
    Some (r, {| world := w; healthCache := healthCache s;
                calls := calls s ++ [c]; logs := logs s |}).

(** A call that returns nothing. *)
Definition call_ (c : Call) (f : World -> World) : M unit :=
  call c (fun w => (tt, f w)).

(** [go f()]: the goroutine is handed to the scheduler; it does not run
    inside the caller. *)
Definition go (c : Call) : M unit :=
  fun s => Some (tt, {| world := world s; healthCache := healthCache s;
                        calls := calls s ++ [c]; logs := logs s |}).

(** [logger.Info], [logger.Error], [runtime.HandleError]. *)
Definition logInfo (msg : string) : M unit :=
  fun s => Some (tt, {| world := world s; healthCache := healthCache s;
                        calls := calls s; logs := logs s ++ [msg] |}).

Definition HandleError (err : error) : M unit := logInfo (Error err).

(** [c.healthCache.Contains], [.Add], [.Remove]. *)
Definition healthCacheContains (key : string) : M bool :=
  fun s => Some (bool_decide (key ∈ healthCache s), s).

Definition healthCacheAdd (key : string) : M unit :=
  fun s => Some (tt, {| world := world s; healthCache := {[key]} ∪ healthCache s;
                        calls := calls s; logs := logs s |}).

Definition healthCacheRemove (key : string) : M unit :=
  fun s => Some (tt, {| world := world s; healthCache := healthCache s ∖ {[key]};
                        calls := calls s; logs := logs s |}).

Variable env : Collaborators.

(** *** Informer callbacks *)

Definition enqueue (obj : Machine) : M unit :=
  let '(key, err) := DeletionHandlingMetaNamespaceKeyFunc obj in
  match err with
  | Some e =>
      HandleError (ErrWrap ("couldn't get key for object " +:+ Name obj +:+ ": ") e)
  | None => call_ (CallQueueAdd key) (queueAdd env key)
  end.

Definition addMachine (machine : Machine) : M unit :=
  logInfo "Adding machine" ;;;
  enqueue machine.

Definition needsUpdate (oldMachine newMachine : Machine) : bool :=
  if negb (DeepEqual (Spec oldMachine) (Spec newMachine)) then true
  else false.

Definition updateMachine (oldMachine machine : Machine) : M unit :=
  if negb (needsUpdate oldMachine machine) then ret tt
  else
    logInfo "Updating machine" ;;;
    enqueue machine.

(** *** Health scheduler *)

(** [checkHealth]: probe the node, set phase and condition on the
    machine, patch the difference.  Returns the machine as mutated and
    the error. *)
Definition checkHealth (machine : Machine) : M (Machine * option error) :=
  let oldMachine := machine in
  let healthCheckCondition :=
    {| Type_ := conditionTypeHealthCheck; Status_ := ConditionFalse;
       Reason := ""; Message := "" |} in
  let* r := call (CallBuildExternalClientSet (ClusterName (Spec machine)))
            (BuildExternalClientSetWithName env (ClusterName (Spec machine))) in
  let* (machine, healthCheckCondition) :=
    match r with
    | inr err =>
        ret (setPhase MachineFailed machine,
             {| Type_ := Type_ healthCheckCondition;
                Status_ := Status_ healthCheckCondition;
                Reason := failedHealthCheckReason;
                Message := Error err |})
    | inl clientset =>
        let* err := call (CallNodesGet (IP (Spec machine)))
                    (NodesGet env clientset (IP (Spec machine))) in
        match err with
        | Some err =>
            ret (setPhase MachineFailed machine,
                 {| Type_ := Type_ healthCheckCondition;
                    Status_ := Status_ healthCheckCondition;
                    Reason := failedHealthCheckReason;
                    Message := Error err |})
        | None =>
            ret (setPhase MachineRunning machine,
                 {| Type_ := Type_ healthCheckCondition;
                    Status_ := ConditionTrue;
                    Reason := Reason healthCheckCondition;
                    Message := Message healthCheckCondition |})
        end
    end in
  let machine := SetCondition healthCheckCondition machine in
  let* p := call (CallGetPatchBytes oldMachine machine)
            (GetPatchBytes env oldMachine machine) in
  match p with
  | inr err => ret (machine, Some (ErrWrap "GetPatchBytes error: " err))
  | inl patchBytes =>
      let* err := call (CallPatch (Name machine) patchBytes)
                  (MachinesPatch env (Name machine) patchBytes) in
      match err with
      | Some err => ret (machine, Some (ErrWrap "update health status error: " err))
      | None => ret (machine, None)
      end
  end.

(** [watchHealth(ctx, key)]: one tick of the health loop, the condition
    function handed to [wait.PollImmediateInfinite]. *)
Definition watchHealth (key : string) : M (bool * option error) :=
  let* r := call (CallListerGet key) (listerGet env key) in
  match r with
  | inr err =>
      if IsNotFound (Some err) then
        logInfo "Stop health check because machine has been deleted" ;;;
        healthCacheRemove key ;;;
        ret (true, None)
      else ret (false, None)
  | inl machine =>
      if negb (bool_decide (Phase (Status machine) = MachineRunning)
               || bool_decide (Phase (Status machine) = MachineFailed))
      then ret (false, None)
      else
        let* (_, err) := checkHealth machine in
        match err with
        | Some err => logInfo "Check health error"
        | None => ret tt
        end ;;;
        ret (false, None)
  end.

(** [wait.PollImmediateInfinite(interval, condition)]: run the condition
    at once and then at every interval until it reports done or an
    error.  One unit of fuel is one tick. *)
Fixpoint PollImmediateInfinite (fuel : nat) (condition : M (bool * option error))
  : M (option error) :=
  match fuel with
  | O => outOfFuel
  | S fuel' =>
      let* (done, err) := condition in
      match err with
      | Some err => ret (Some err)
      | None => if (done : bool) then ret None
                else PollImmediateInfinite fuel' condition
      end
  end.

(** [ensureStartHealthCheck]: the random sleep before the [go] statement
    changes no state and is left out; the loop is handed to the scheduler
    first and the key is added to the registry after. *)
Definition ensureStartHealthCheck (key : string) : M unit :=
  let* present := healthCacheContains key in
  if (present : bool) then ret tt
  else
    logInfo "Start health check loop" ;;;
    go (CallGoPollHealth key) ;;;
    healthCacheAdd key.

(** *** Reconciler *)

(** The loop of [onCreate]: while the phase is Initializing, run the
    create hook, then the full update; the error of the update replaces
    the error of the hook.  One unit of fuel is one iteration. *)
Fixpoint onCreateLoop (fuel : nat) (provider : Provider) (cluster : Cluster)
    (machine : Machine) (err : option error) : M (Machine * option error) :=
  if bool_decide (Phase (Status machine) = MachineInitializing) then
    match fuel with
    | O => outOfFuel
    | S fuel' =>
        let* (machine, err) :=
          call (CallOnCreate machine) (OnCreate provider machine cluster) in
        let* err := call (CallUpdate machine) (MachinesUpdate env machine) in
        match err with
        | Some err => ret (machine, Some err)
        | None => onCreateLoop fuel' provider cluster machine err
        end
    end
  else ret (machine, err).

Definition onCreate (fuel : nat) (machine : Machine) : M (Machine * option error) :=
  let* p := call (CallGetProvider (SpecType (Spec machine)))
                 (GetProvider env (SpecType (Spec machine))) in
  match p with
  | inr err => ret (machine, Some err)
  | inl provider =>
      let* c := call (CallGetClusterByName (ClusterName (Spec machine)))
                     (GetClusterByName env (ClusterName (Spec machine))) in
      match c with
      | inr err => ret (machine, Some err)
      | inl cluster => onCreateLoop fuel provider cluster machine None
      end
  end.

Definition onUpdate (machine : Machine) : M (Machine * option error) :=
  ensureStartHealthCheck (Name machine) ;;;
  let* p := call (CallGetProvider (SpecType (Spec machine)))
                 (GetProvider env (SpecType (Spec machine))) in
  match p with
  | inr err => ret (machine, Some err)
  | inl provider =>
      let* c := call (CallGetClusterByName (ClusterName (Spec machine)))
                     (GetClusterByName env (ClusterName (Spec machine))) in
      match c with
      | inr err => ret (machine, Some err)
      | inl cluster =>
          let* (machine, err) :=
            call (CallOnUpdate machine) (OnUpdate provider machine cluster) in
          let* err := call (CallUpdate machine) (MachinesUpdate env machine) in
          match err with
          | Some err => ret (machine, Some err)
          | None => ret (machine, None)
          end
      end
  end.

(** [reconcile]: the switch on [machine.Status.Phase]. *)
Definition reconcile (fuel : nat) (key : string) (machine : Machine)
  : M (Machine * option error) :=
  let phase := Phase (Status machine) in
  if bool_decide (phase = MachineInitializing) then
    onCreate fuel machine
  else if bool_decide (phase = MachineRunning)
          || bool_decide (phase = MachineFailed) then
    onUpdate machine
  else if bool_decide (phase = MachineTerminating) then
    logInfo "Machine has been terminated. Attempting to cleanup resources" ;;;
    let* err := call (CallDelete key) (deleterDelete env key) in
    match err with
    | None => logInfo "Machine has been successfully deleted" ;;; ret (machine, err)
    | Some _ => ret (machine, err)
    end
  else
    logInfo "unknown machine phase" ;;;
    ret (machine, None).

(** [syncMachine]; the deferred log line runs on every return. *)
Definition syncMachine (fuel : nat) (key : string) : M (option error) :=
  let finished := logInfo "Finished syncing machine" in
  match SplitMetaNamespaceKey key with
  | (_, _, Some err) => finished ;;; ret (Some err)
  | (_, name, None) =>
      let* r := call (CallListerGet name) (listerGet env name) in
      let err := match r with inr e => Some e | inl _ => None end in
      (if IsNotFound err then logInfo "Machine has been deleted" else ret tt) ;;;
      match r with
      | inr err =>
          HandleError (ErrWrap ("unable to retrieve machine " +:+ key +:+ " from store: ") err) ;;;
          finished ;;;
          ret (Some err)
      | inl machine =>
          let* (_, err) := reconcile fuel key machine in
          finished ;;;
          ret err
      end
  end.

(** [processNextWorkItem]; [queue.Done] is deferred to every return that
    follows the dequeue. *)
Definition processNextWorkItem (fuel : nat) : M bool :=
  let* (key, quit) := call CallQueueGet (queueGet env) in
  if (quit : bool) then ret false
  else
    let* err := syncMachine fuel key in
    match err with
    | None =>
        call_ (CallQueueForget key) (queueForget env key) ;;;
        call_ (CallQueueDone key) (queueDone env key) ;;;
        ret true
    | Some err =>
        HandleError (ErrWrap ("error processing machine " +:+ key +:+ " (will retry): ") err) ;;;
        call_ (CallQueueAddRateLimited key) (queueAddRateLimited env key) ;;;
        call_ (CallQueueDone key) (queueDone env key) ;;;
        ret true
    end.

(** [worker]: process items until the queue shuts down. *)
Fixpoint worker (fuel : nat) : M unit :=
  match fuel with
  | O => outOfFuel
  | S fuel' =>
      let* more := processNextWorkItem fuel' in
      if (more : bool) then worker fuel' else ret tt
  end.

End Controller.

Arguments Provider : clear implicits.
Arguments Collaborators : clear implicits.
Arguments State : clear implicits.

(** ** The start of a health loop and its first tick *)

(** [ensureStartHealthCheck] starts the goroutine on line 286 and adds the
    key to the registry on line 287; [wait.PollImmediateInfinite] runs its
    first tick at once, in the new goroutine.  The registry is a
    thread-safe set, so what the goroutine does takes effect either after
    the [Add] or between the [go] statement and the [Add].  This is the
    body of [ensureStartHealthCheck] with a computation [between] run at
    that second place; it returns what [between] returned, or [None] when
    the key was registered and nothing was started. *)
Definition ensureStartHealthCheckRacing {World A : Type}
    (between : State World -> option (A * State World)) (key : string)
  : State World -> option (option A * State World) :=
  bind (healthCacheContains key) (fun present : bool =>
    if present then ret None
    else
      bind (logInfo "Start health check loop") (fun _ =>
      bind (go (CallGoPollHealth key)) (fun _ =>
      bind between (fun a =>
      bind (healthCacheAdd key) (fun _ =>
      ret (Some a)))))).

(** ** The probe outcome, as the specification words it *)

(** The external probe of a health tick: build a client for the owning
    cluster, then fetch the node by the machine's address.  The probe fails
    with the build error, or else with the fetch error. *)
Definition probeError {World Cluster Clientset : Type}
    (env : Collaborators World Cluster Clientset) (machine : Machine)
    (w : World) : option error :=
  match BuildExternalClientSetWithName env (ClusterName (Spec machine)) w with
  | (inr err, _) => Some err
  | (inl clientset, w') => fst (NodesGet env clientset (IP (Spec machine)) w')
  end.

(** The calls of that probe, and the world it leaves. *)
Definition probeCalls {World Cluster Clientset : Type}
    (env : Collaborators World Cluster Clientset) (machine : Machine)
    (w : World) : list Call :=
  match BuildExternalClientSetWithName env (ClusterName (Spec machine)) w with
  | (inr _, _) => [CallBuildExternalClientSet (ClusterName (Spec machine))]
  | (inl _, _) => [CallBuildExternalClientSet (ClusterName (Spec machine));
                   CallNodesGet (IP (Spec machine))]
  end.

Definition probeWorld {World Cluster Clientset : Type}
    (env : Collaborators World Cluster Clientset) (machine : Machine)
    (w : World) : World :=
  match BuildExternalClientSetWithName env (ClusterName (Spec machine)) w with
  | (inr _, w') => w'
  | (inl clientset, w') => (NodesGet env clientset (IP (Spec machine)) w').2
  end.

(** The condition [checkHealth] records for a probe outcome. *)
Definition probeCondition (failure : option error) : MachineCondition :=
  match failure with
  | Some err =>
      {| Type_ := conditionTypeHealthCheck; Status_ := ConditionFalse;
         Reason := failedHealthCheckReason; Message := Error err |}
  | None =>
      {| Type_ := conditionTypeHealthCheck; Status_ := ConditionTrue;
         Reason := ""; Message := "" |}
  end.

(** The phase the specification prescribes for a probe outcome. *)
Definition probePhase (failure : option error) : MachinePhase :=
  match failure with
  | Some _ => MachineFailed
  | None => MachineRunning
  end.

(** The calls made between two states of one run. *)
Definition callsSince {World : Type} (before after : State World) : list Call :=
  drop (length (calls before)) (calls after).



(** What a call writes to the remote store or hands to the patch
    computation as the new object. *)
Definition writtenPhase (c : Call) : option MachinePhase :=
  match c with
  | CallUpdate m => Some (Phase (Status m))
  | CallGetPatchBytes _ m => Some (Phase (Status m))
  | _ => None
  end.

(** ** Concrete collaborators for the scenarios *)

Module Scenario.

(** The world of the scenarios is a counter of hook invocations. *)
Definition initial : State nat :=
  {| world := 0; healthCache := ∅; calls := []; logs := [] |}.

Definition machine (name : string) (phase : MachinePhase) : Machine :=
  {| Namespace := ""; Name := name;
     Spec := {| SpecType := "dummy"; ClusterName := "cls-1"; IP := "10.0.0.7";
                ProviderParams := [] |};
     Status := {| Phase := phase; Conditions := [] |} |}.

(** A create hook that fails on its first invocation, leaving the machine
    Initializing, and succeeds on the next one, moving it to Running. *)
Definition flakyProvider : Provider nat unit :=
  {| OnCreate := fun m _ w =>
       match w with
       | O => (m, Some (ErrOther "create step failed"), S w)
       | S _ => (setPhase MachineRunning m, None, S w)
       end;
     OnUpdate := fun m _ w => (m, None, S w) |}.

(** Collaborators parametrised by what the cache holds and which types
    the provider registry knows; every store write succeeds and the
    downstream node fetch fails. *)
Definition collaborators (cache : string -> option Machine)
    (knownType : string) : Collaborators nat unit unit :=
  {| queueGet := fun w => ("m1", false, w);
     queueAdd := fun _ w => w;
     queueForget := fun _ w => w;
     queueAddRateLimited := fun _ w => w;
     queueDone := fun _ w => w;
     listerGet := fun name w =>
       match cache name with
       | Some m => (inl m, w)
       | None => (inr (ErrNotFound ("machine " +:+ name +:+ " not found")), w)
       end;
     GetProvider := fun ty w =>
       if bool_decide (ty = knownType) then (inl flakyProvider, w)
       else (inr (ErrOther ("machine provider " +:+ ty +:+ " not found")), w);
     GetClusterByName := fun _ w => (inl tt, w);
     MachinesUpdate := fun _ w => (None, w);
     MachinesPatch := fun _ _ w => (None, w);
     deleterDelete := fun _ w => (None, w);
     BuildExternalClientSetWithName := fun _ w => (inl tt, w);
     NodesGet := fun _ _ w => (Some (ErrOther "node not reachable"), w);
     GetPatchBytes := fun _ _ w => (inl [], w) |}.

Definition emptyCache : string -> option Machine := fun _ => None.

(** What a run leaves to observe: its result, the calls and the logs. *)
Definition observe {A} (r : option (A * State nat)) : option (A * list Call * list string) :=
  match r with
  | Some (a, st) => Some (a, calls st, logs st)
  | None => None
  end.

End Scenario.

(** ** Keys: counting separators *)

(** The number of "/" characters of a key. *)
Fixpoint slashes (s : string) : nat :=
  match s with
  | EmptyString => 0
  | String c rest => (if Ascii.eqb c "/"%char then 1 else 0) + slashes rest
  end.

(** ** Further collaborators for the handlers' cases *)

Module Cases.

(** A create hook that never moves the machine and never fails, and an
    update hook that fails after touching nothing. *)
Definition stuckProvider : Provider nat unit :=
  {| OnCreate := fun m _ w => (m, None, S w);
     OnUpdate := fun m _ w => (m, Some (ErrOther "update step failed"), S w) |}.

(** A create hook that moves the machine to Running at once. *)
Definition promptProvider : Provider nat unit :=
  {| OnCreate := fun m _ w => (setPhase MachineRunning m, None, S w);
     OnUpdate := fun m _ w => (m, None, S w) |}.

(** Collaborators built from what the cache holds, the one provider the
    registry knows ("dummy"), the outcomes of the cluster lookup, of the
    remote update and of the patch computation, and whether the queue is
    shutting down. *)
Definition collaborators (cache : string -> option Machine)
    (provider : Provider nat unit) (clusterErr updateErr patchErr : option error)
    (quit : bool) : Collaborators nat unit unit :=
  {| queueGet := fun w => ("m1", quit, w);
     queueAdd := fun _ w => w;
     queueForget := fun _ w => w;
     queueAddRateLimited := fun _ w => w;
     queueDone := fun _ w => w;
     listerGet := fun name w =>
       match cache name with
       | Some m => (inl m, w)
       | None => (inr (ErrNotFound ("machine " +:+ name +:+ " not found")), w)
       end;
     GetProvider := fun ty w =>
       if bool_decide (ty = "dummy") then (inl provider, w)
       else (inr (ErrOther ("machine provider " +:+ ty +:+ " not found")), w);
     GetClusterByName := fun _ w =>
       match clusterErr with
       | Some e => (inr e, w)
       | None => (inl tt, w)
       end;
     MachinesUpdate := fun _ w => (updateErr, w);
     MachinesPatch := fun _ _ w => (Some (ErrOther "patch refused"), w);
     deleterDelete := fun _ w => (None, w);
     BuildExternalClientSetWithName := fun _ w => (inl tt, w);
     NodesGet := fun _ _ w => (None, w);
     GetPatchBytes := fun _ _ w =>
       match patchErr with
       | Some e => (inr e, w)
       | None => (inl [], w)
       end |}.

(** A cache holding exactly one machine, under its name. *)
Definition cacheOf (m : Machine) : string -> option Machine :=
  fun name => if bool_decide (name = Name m) then Some m else None.

Definition machine (namespace name machineType : string) (phase : MachinePhase)
  : Machine :=
  {| Namespace := namespace; Name := name;
     Spec := {| SpecType := machineType; ClusterName := "cls-1"; IP := "10.0.0.7";
                ProviderParams := [] |};
     Status := {| Phase := phase; Conditions := [] |} |}.

(** The cases used below. *)
Definition noMachines : string -> option Machine := fun _ => None.

Definition okEnv (cache : string -> option Machine) : Collaborators nat unit unit :=
  collaborators cache promptProvider None None None false.

Definition stuckEnv (cache : string -> option Machine) : Collaborators nat unit unit :=
  collaborators cache stuckProvider None None None false.

Definition noClusterEnv : Collaborators nat unit unit :=
  collaborators noMachines promptProvider
    (Some (ErrOther "cluster cls-1 not found")) None None false.

Definition shutdownEnv : Collaborators nat unit unit :=
  collaborators noMachines promptProvider None None None true.

Definition start : State nat :=
  {| world := 0; healthCache := ∅; calls := []; logs := [] |}.

(** Collaborators whose queue counts what is done to it: the world grows
    by 1 at [Add], 10 at [Forget], 100 at [AddRateLimited] and 1000 at
    [Done]. *)
Definition countingQueue (env : Collaborators nat unit unit)
  : Collaborators nat unit unit :=
  {| queueGet := queueGet env;
     queueAdd := fun _ w => w + 1;
     queueForget := fun _ w => w + 10;
     queueAddRateLimited := fun _ w => w + 100;
     queueDone := fun _ w => w + 1000;
     listerGet := listerGet env;
     GetProvider := GetProvider env;
     GetClusterByName := GetClusterByName env;
     MachinesUpdate := MachinesUpdate env;
     MachinesPatch := MachinesPatch env;
     deleterDelete := deleterDelete env;
     BuildExternalClientSetWithName := BuildExternalClientSetWithName env;
     NodesGet := NodesGet env;
     GetPatchBytes := GetPatchBytes env |}.

(** A state in which the loops of "m1" and "m9" are registered. *)
Definition watching : State nat :=
  {| world := 0; healthCache := {["m1"; "m9"]}; calls := []; logs := [] |}.

End Cases.

(** ** Properties *)

Arguments IsNotFound : simpl never.

(** Unfolding the primitive operations of the controller monad. *)
Ltac unfold_prims :=
  unfold bind, ret, call_, call, go, logInfo, HandleError, healthCacheContains,
    healthCacheAdd, healthCacheRemove, outOfFuel in *.

Lemma drop_calls_app {A} (l k : list A) : drop (length l) (l ++ k) = k.
Proof. by rewrite drop_app_length. Qed.

Section Properties.

Context {World Cluster Clientset : Type}.
Variable env : Collaborators World Cluster Clientset.


(** C5: reconciling a machine whose phase is none of Initializing,
    Running, Failed, Terminating returns nil, leaves the machine as it
    was, and makes no collaborator call at all (no store write, no
    provider call, no deletion call); only a log line is written. *)
Theorem reconcile_unknown_phase_noop
    (fuel : nat) (key : string) (m : Machine) (st : State World) :
  Phase (Status m) <> MachineInitializing ->
  Phase (Status m) <> MachineRunning ->
  Phase (Status m) <> MachineFailed ->
  Phase (Status m) <> MachineTerminating ->
  reconcile env fuel key m st
    = Some ((m, None),
            {| world := world st; healthCache := healthCache st;
               calls := calls st;
               logs := logs st ++ ["unknown machine phase"] |}).
Proof.
  intros Hi Hr Hf Ht. unfold reconcile.
  rewrite !bool_decide_eq_false_2 by assumption. reflexivity.
Qed.

(** C7: on an update notification the controller adds a key to the queue
    if and only if the new spec differs from the old one: when the specs
    differ the one call made is [queue.Add] on the key of the new object
    and the world is the one that [Add] leaves; when the specs are equal
    the notification changes nothing at all. *)
Theorem updateMachine_enqueues_iff_spec_differs
    (old new : Machine) (st : State World) :
  exists st',
    updateMachine env old new st = Some (tt, st')
    /\ ((exists key, CallQueueAdd key ∈ callsSince st st')
        <-> Spec new <> Spec old)
    /\ callsSince st st'
       = (if decide (Spec new = Spec old) then []
          else [CallQueueAdd (DeletionHandlingMetaNamespaceKeyFunc new).1])
    /\ world st'
       = (if decide (Spec new = Spec old) then world st
          else queueAdd env (DeletionHandlingMetaNamespaceKeyFunc new).1 (world st))
    /\ healthCache st' = healthCache st
    /\ (Spec new = Spec old -> st' = st).
Proof.
  unfold updateMachine, needsUpdate, DeepEqual, callsSince.
  destruct (decide (Spec new = Spec old)) as [Heq|Hne].
  - rewrite bool_decide_eq_true_2 by done. simpl.
    eexists; split; [reflexivity|]. rewrite drop_all.
    repeat split; try done.
    + intros [k Hk]. by apply elem_of_nil in Hk.
  - rewrite bool_decide_eq_false_2 by (intros H; by apply Hne). simpl.
    unfold enqueue, DeletionHandlingMetaNamespaceKeyFunc.
    case_bool_decide; unfold_prims; simpl;
      (eexists; split; [reflexivity|]); simpl; rewrite drop_calls_app;
      (repeat split; try done); intros _; eexists; apply list_elem_of_singleton;
      reflexivity.
Qed.

(** C8: [ensureStartHealthCheck] is idempotent per key.  A call for a key
    already in the registry changes nothing; and from any state, a first
    call leaves the key in the registry, a second call after it is a
    no-op, and over both calls a health loop is started for the key once
    if it was absent and not at all if it was present. *)
Theorem ensureStartHealthCheck_idempotent (key : string) (st : State World) :
  (key ∈ healthCache st -> ensureStartHealthCheck key st = Some (tt, st))
  /\ exists st1,
      ensureStartHealthCheck key st = Some (tt, st1)
      /\ key ∈ healthCache st1
      /\ ensureStartHealthCheck key st1 = Some (tt, st1)
      /\ length (filter (fun c => startsHealthLoopFor key c = true)
                        (callsSince st st1))
         = (if decide (key ∈ healthCache st) then 0 else 1).
Proof.
  unfold ensureStartHealthCheck, callsSince. unfold_prims.
  destruct (decide (key ∈ healthCache st)) as [Hin|Hout].
  - rewrite bool_decide_eq_true_2 by done. split; [done|].
    exists st. rewrite bool_decide_eq_true_2 by done.
    rewrite drop_all. done.
  - rewrite bool_decide_eq_false_2 by done. simpl. split; [done|].
    eexists; split; [reflexivity|]. simpl.
    rewrite bool_decide_eq_true_2 by set_solver.
    rewrite drop_calls_app. simpl.
    repeat split; [set_solver|].
    rewrite filter_cons_True; [done|]. simpl. by apply bool_decide_eq_true_2.
Qed.

(** *** Health check *)

Lemma getCondition_SetCondition (c : MachineCondition) (m : Machine) :
  getCondition (Type_ c) (SetCondition c m) = Some c.
Proof.
  unfold getCondition, SetCondition, hasCondition. simpl.
  induction (Conditions (Status m)) as [|d ds IH]; simpl.
  - by rewrite bool_decide_eq_true_2.
  - destruct (bool_decide (Type_ d = Type_ c)) eqn:Hd; simpl.
    + by rewrite bool_decide_eq_true_2.
    + destruct (existsb _ ds); simpl in *; rewrite Hd; exact IH.
Qed.


(** What one run of [checkHealth] does: it always finishes, the machine
    it leaves carries the phase and condition of the probe outcome, the
    patch is computed against the machine as it was read, and neither
    the registry nor any hook is touched. *)
Lemma checkHealth_run (m : Machine) (st : State World) :
  let m' := SetCondition (probeCondition (probeError env m (world st)))
              (setPhase (probePhase (probeError env m (world st))) m) in
  exists err st' new,
    checkHealth env m st = Some ((m', err), st')
    /\ healthCache st' = healthCache st
    /\ calls st' = calls st ++ new
    /\ Forall (fun c => forall p, writtenPhase c = Some p ->
                        p = Phase (Status m')) new
    /\ Forall (fun c => isProviderHook c = false
                        /\ isHealthLoopStart c = false) new.
Proof.
  unfold checkHealth, probeError. unfold_prims. simpl.
  destruct (BuildExternalClientSetWithName env (ClusterName (Spec m)) (world st))
    as [[cs|e] w1] eqn:Hb; simpl.
  - destruct (NodesGet env cs (IP (Spec m)) w1) as [[e|] w2] eqn:Hn; simpl;
      (match goal with |- context [GetPatchBytes env ?a ?b ?w] =>
          destruct (GetPatchBytes env a b w) as [[bs|pe] w3] eqn:Hp end); simpl;
      try (match goal with |- context [MachinesPatch env ?a ?b ?w] =>
          destruct (MachinesPatch env a b w) as [[ue|] w4] eqn:Hu end); simpl;
      do 3 eexists; (split; [reflexivity|]); simpl; (split; [reflexivity|]);
      rewrite <- !app_assoc; (split; [reflexivity|]); simpl;
      split; repeat constructor; simpl; intros; congruence.
  - (match goal with |- context [GetPatchBytes env ?a ?b ?w] =>
          destruct (GetPatchBytes env a b w) as [[bs|pe] w3] eqn:Hp end); simpl;
      try (match goal with |- context [MachinesPatch env ?a ?b ?w] =>
          destruct (MachinesPatch env a b w) as [[ue|] w4] eqn:Hu end); simpl;
      do 3 eexists; (split; [reflexivity|]); simpl; (split; [reflexivity|]);
      rewrite <- !app_assoc; (split; [reflexivity|]); simpl;
      split; repeat constructor; simpl; intros; congruence.
Qed.

(** C3: a health probe always finishes; when building the downstream
    client or fetching the node fails with an error, the machine is left
    in phase Failed with the HealthCheck condition false, reason
    FailedHealthCheck and the error's text as message; when the fetch
    succeeds the machine is left in phase Running with the HealthCheck
    condition true. *)
Theorem checkHealth_sets_phase_and_condition (m : Machine) (st : State World) :
  exists m' err st',
    checkHealth env m st = Some ((m', err), st')
    /\ match probeError env m (world st) with
       | Some e =>
           Phase (Status m') = MachineFailed
           /\ getCondition conditionTypeHealthCheck m'
              = Some {| Type_ := conditionTypeHealthCheck;
                        Status_ := ConditionFalse;
                        Reason := failedHealthCheckReason;
                        Message := Error e |}
       | None =>
           Phase (Status m') = MachineRunning
           /\ getCondition conditionTypeHealthCheck m'
              = Some {| Type_ := conditionTypeHealthCheck;
                        Status_ := ConditionTrue;
                        Reason := ""; Message := "" |}
       end.
Proof.
  destruct (checkHealth_run m st) as (err & st' & new & Hrun & _).
  eexists _, err, st'. split; [exact Hrun|].
  destruct (probeError env m (world st)) as [e|]; simpl; split;
    try reflexivity;
    match goal with
    | |- getCondition _ (SetCondition ?c _) = _ =>
        exact (getCondition_SetCondition c _)
    end.
Qed.

(** C6: a tick of the health loop for a key always finishes without an
    error; it reports the loop done exactly when the cache lookup of the
    key fails with a not-found error, and then the key has been removed
    from the registry; in every other case (another lookup error, a
    phase outside Running and Failed, a probe of any outcome) the loop
    goes on and the registry is as it was. *)
Theorem watchHealth_stops_iff_not_found (key : string) (st : State World) :
  exists done st',
    watchHealth env key st = Some ((done, None), st')
    /\ (done = true <->
        exists e, (listerGet env key (world st)).1 = inr e
                  /\ IsNotFound (Some e) = true)
    /\ healthCache st'
       = (if (done : bool) then healthCache st ∖ {[key]} else healthCache st).
Proof.
  unfold watchHealth. unfold_prims. simpl.
  destruct (listerGet env key (world st)) as [[m|e] w] eqn:Hget; simpl.
  - destruct (negb _) eqn:Hphase; simpl.
    + exists false; eexists; split; [reflexivity|]. split; [|reflexivity].
      split; [done|]. intros (e & He & _). discriminate.
    + match goal with |- context [checkHealth env m ?s] =>
        destruct (checkHealth_run m s) as (err & st' & new & Hrun & Hcache & _)
      end.
      rewrite Hrun. simpl in *.
      destruct err; simpl; exists false; eexists; (split; [reflexivity|]);
        simpl; (split; [|exact Hcache]);
        (split; [done|]); intros (e' & He & _); discriminate.
  - destruct (IsNotFound (Some e)) eqn:Hnf; simpl.
    + exists true; eexists; split; [reflexivity|]. split; [|reflexivity].
      split; [|done]. intros _. exists e. done.
    + exists false; eexists; split; [reflexivity|]. split; [|reflexivity].
      split; [done|]. intros (e' & He & Hnf'). congruence.
Qed.

(** X15: Once the lookup reports not-found, the loop handed to
    [wait.PollImmediateInfinite] ends at that tick, whatever fuel is
    left: no further tick runs. *)
Lemma health_loop_ends_on_not_found (fuel : nat) (key : string)
    (st : State World) (e : error) :
  (listerGet env key (world st)).1 = inr e ->
  IsNotFound (Some e) = true ->
  exists st',
    PollImmediateInfinite (S fuel) (watchHealth env key) st = Some (None, st')
    /\ callsSince st st' = [CallListerGet key]
    /\ key ∉ healthCache st'.
Proof.
  intros Hget Hnf. simpl. unfold watchHealth, callsSince. unfold_prims. simpl.
  destruct (listerGet env key (world st)) as [r w]. simpl in Hget. subst r.
  rewrite Hnf. simpl. eexists; split; [reflexivity|]. simpl.
  rewrite drop_calls_app. split; [done|].
  intros Hin. apply elem_of_difference in Hin as [_ Hn].
  apply Hn. by apply elem_of_singleton.
Qed.

(** *** Update handler *)

(** C10: reconciling a machine in phase Running or Failed always finishes,
    and the first thing it does is ensure the health loop for the
    machine's name: the loop is started (when not yet registered) before
    the provider is resolved, and the name is in the registry afterwards
    whatever the provider lookup, the cluster lookup, the update hook or
    the remote update return. *)
Theorem reconcile_ensures_health_loop_first
    (fuel : nat) (key : string) (m : Machine) (st : State World) :
  Phase (Status m) = MachineRunning \/ Phase (Status m) = MachineFailed ->
  exists r st' rest,
    reconcile env fuel key m st = Some (r, st')
    /\ Name m ∈ healthCache st'
    /\ callsSince st st'
       = (if decide (Name m ∈ healthCache st) then []
          else [CallGoPollHealth (Name m)])
         ++ CallGetProvider (SpecType (Spec m)) :: rest
    /\ Forall (fun c => isHealthLoopStart c = false) rest.
Proof.
  intros Hphase. unfold reconcile.
  assert (bool_decide (Phase (Status m) = MachineInitializing) = false) as ->.
  { apply bool_decide_eq_false_2. destruct Hphase as [-> | ->]; discriminate. }
  assert (bool_decide (Phase (Status m) = MachineRunning)
          || bool_decide (Phase (Status m) = MachineFailed) = true) as ->.
  { destruct Hphase as [H|H]; rewrite H;
      [rewrite bool_decide_eq_true_2 by done; done|].
    rewrite (bool_decide_eq_true_2 (MachineFailed = MachineFailed)) by done.
    apply orb_true_r. }
  unfold onUpdate, ensureStartHealthCheck, callsSince. unfold_prims.
  destruct (decide (Name m ∈ healthCache st)) as [Hin|Hout];
    [rewrite bool_decide_eq_true_2 by done
    |rewrite bool_decide_eq_false_2 by done]; simpl;
    (destruct (GetProvider env (SpecType (Spec m)) (world st))
       as [[provider|e] w1] eqn:Hprov; simpl;
     [destruct (GetClusterByName env (ClusterName (Spec m)) w1)
        as [[cluster|e] w2] eqn:Hcl; simpl;
      [destruct (OnUpdate provider m cluster w2) as [[m1 e1] w3] eqn:Hhook; simpl;
       destruct (MachinesUpdate env m1 w3) as [[e2|] w4] eqn:Hupd; simpl|]|]);
    do 3 eexists; (split; [reflexivity|]); simpl;
    (split; [first [exact Hin
                   |apply elem_of_union_l; by apply elem_of_singleton]|]);
    rewrite <- ?app_assoc; rewrite drop_calls_app; simpl;
    (split; [reflexivity|]); repeat constructor.
Qed.

(** *** Phase assignments *)




End Properties.

(** ** The scenarios, evaluated *)

(** Whatever error the cache lookup reports, not-found included,
    [syncMachine] returns it: the not-found branch only writes a log line
    and falls through to the error return. *)
Lemma syncMachine_returns_lookup_error {World Cluster Clientset : Type}
    (env : Collaborators World Cluster Clientset)
    (fuel : nat) (name : string) (st : State World) (e : error) :
  SplitMetaNamespaceKey name = ("", name, None) ->
  (listerGet env name (world st)).1 = inr e ->
  exists st', syncMachine env fuel name st = Some (Some e, st').
Proof.
  intros Hkey Hget. unfold syncMachine. rewrite Hkey. unfold_prims. simpl.
  destruct (listerGet env name (world st)) as [r w]. simpl in Hget. subst r.
  destruct (IsNotFound (Some e)); simpl; eexists; reflexivity.
Qed.

(** C1 (failing input): key "m1" while the cache holds no machine "m1".
    The lookup reports not-found; [syncMachine] logs "Machine has been
    deleted" and then returns the not-found error, so the worker requeues
    the key with [AddRateLimited] and never calls [Forget]. *)
Theorem syncMachine_not_found_is_requeued :
  Scenario.observe
    (syncMachine (Scenario.collaborators Scenario.emptyCache "dummy") 0 "m1"
       Scenario.initial)
  = Some (Some (ErrNotFound "machine m1 not found"),
          [CallListerGet "m1"],
          ["Machine has been deleted";
           "unable to retrieve machine m1 from store: machine m1 not found";
           "Finished syncing machine"])
  /\ Scenario.observe
       (processNextWorkItem (Scenario.collaborators Scenario.emptyCache "dummy") 0
          Scenario.initial)
     = Some (true,
             [CallQueueGet; CallListerGet "m1"; CallQueueAddRateLimited "m1";
              CallQueueDone "m1"],
             ["Machine has been deleted";
              "unable to retrieve machine m1 from store: machine m1 not found";
              "Finished syncing machine";
              "error processing machine m1 (will retry): machine m1 not found"]).
Proof. split; vm_compute; reflexivity. Qed.

(** C2 (failing input): machine "m1" in phase Initializing with a create
    hook that fails on its first invocation and leaves the phase as it
    was, while every remote update succeeds.  The hook's error is
    overwritten by the update's nil: the pass does not stop, the hook runs
    a second time, and [onCreate] returns nil. *)
Theorem onCreate_overwrites_hook_error :
  (OnCreate Scenario.flakyProvider
     (Scenario.machine "m1" MachineInitializing) tt 0).1.2
  = Some (ErrOther "create step failed")
  /\ Scenario.observe
       (onCreate (Scenario.collaborators Scenario.emptyCache "dummy") 2
          (Scenario.machine "m1" MachineInitializing) Scenario.initial)
     = Some (Scenario.machine "m1" MachineRunning, None,
             [CallGetProvider "dummy"; CallGetClusterByName "cls-1";
              CallOnCreate (Scenario.machine "m1" MachineInitializing);
              CallUpdate (Scenario.machine "m1" MachineInitializing);
              CallOnCreate (Scenario.machine "m1" MachineInitializing);
              CallUpdate (Scenario.machine "m1" MachineRunning)],
             []).
Proof. split; vm_compute; reflexivity. Qed.

(** Scenario m2 of the specification: a Running machine whose node fetch
    fails is left Failed, with the error's text in the condition. *)
Example checkHealth_scenario_m2 :
  Scenario.observe
    (checkHealth (Scenario.collaborators Scenario.emptyCache "dummy")
       (Scenario.machine "m2" MachineRunning) Scenario.initial)
  = Some (SetCondition
            {| Type_ := "HealthCheck"; Status_ := ConditionFalse;
               Reason := "FailedHealthCheck"; Message := "node not reachable" |}
            (Scenario.machine "m2" MachineFailed),
          None,
          [CallBuildExternalClientSet "cls-1"; CallNodesGet "10.0.0.7";
           CallGetPatchBytes (Scenario.machine "m2" MachineRunning)
             (SetCondition
                {| Type_ := "HealthCheck"; Status_ := ConditionFalse;
                   Reason := "FailedHealthCheck"; Message := "node not reachable" |}
                (Scenario.machine "m2" MachineFailed));
           CallPatch "m2" []],
          []).
Proof. vm_compute; reflexivity. Qed.



(** C5 at machine "m5" in the unrecognised phase "Pending". *)
Lemma reconcile_unknown_phase_witness :
  reconcile (Scenario.collaborators Scenario.emptyCache "dummy") 0 "m5"
    (Scenario.machine "m5" "Pending") Scenario.initial
  = Some ((Scenario.machine "m5" "Pending", None),
          {| world := world Scenario.initial;
             healthCache := healthCache Scenario.initial;
             calls := calls Scenario.initial;
             logs := logs Scenario.initial ++ ["unknown machine phase"] |}).
Proof.
  apply (reconcile_unknown_phase_noop
           (Scenario.collaborators Scenario.emptyCache "dummy") 0 "m5"
           (Scenario.machine "m5" "Pending") Scenario.initial);
    simpl; discriminate.
Defined.

(** C10 at machine "m6" in phase Running whose type no provider knows:
    the provider lookup fails, and the health loop has been started. *)
Lemma reconcile_ensures_health_loop_witness :
  exists r st' rest,
    reconcile (Scenario.collaborators Scenario.emptyCache "other") 0 "m6"
      (Scenario.machine "m6" MachineRunning) Scenario.initial = Some (r, st')
    /\ "m6" ∈ healthCache st'
    /\ callsSince Scenario.initial st'
       = (if decide ("m6" ∈ healthCache Scenario.initial) then []
          else [CallGoPollHealth "m6"])
         ++ CallGetProvider "dummy" :: rest
    /\ Forall (fun c => isHealthLoopStart c = false) rest.
Proof.
  apply (reconcile_ensures_health_loop_first
           (Scenario.collaborators Scenario.emptyCache "other") 0 "m6"
           (Scenario.machine "m6" MachineRunning) Scenario.initial).
  left. reflexivity.
Defined.



(** ** Further properties of the controller *)

(** *** Keys *)

Lemma length_Split (s : string) : length (Split s) = S (slashes s).
Proof.
  induction s as [|c rest IH]; simpl; [reflexivity|].
  destruct (Ascii.eqb c "/"); simpl; [by rewrite IH|].
  destruct (Split rest) as [|p ps]; simpl in *; [discriminate|exact IH].
Qed.

Lemma Split_no_slash (s : string) : slashes s = 0 -> Split s = [s].
Proof.
  induction s as [|c rest IH]; simpl; [reflexivity|].
  destruct (Ascii.eqb c "/"); simpl; [discriminate|].
  intros H. by rewrite (IH H).
Qed.

Lemma Split_namespaced (a b : string) :
  slashes a = 0 -> Split (a +:+ "/" +:+ b) = a :: Split b.
Proof.
  induction a as [|c rest IH]; intros H; [reflexivity|].
  simpl in H. destruct (Ascii.eqb c "/") eqn:Hc; [discriminate|].
  change (Split (String c (rest +:+ "/" +:+ b)) = String c rest :: Split b).
  cbn [Split]. rewrite Hc, (IH H). reflexivity.
Qed.

(** The key of a machine whose namespace and name contain no "/" splits
    back into that namespace and that name. *)
Lemma SplitMetaNamespaceKey_of_key (m : Machine) :
  slashes (Namespace m) = 0 -> slashes (Name m) = 0 ->
  SplitMetaNamespaceKey (DeletionHandlingMetaNamespaceKeyFunc m).1
  = (Namespace m, Name m, None).
Proof.
  intros Hns Hname.
  unfold DeletionHandlingMetaNamespaceKeyFunc, SplitMetaNamespaceKey.
  case_bool_decide as Hempty; simpl.
  - rewrite (Split_no_slash _ Hname). by rewrite Hempty.
  - rewrite (Split_namespaced _ _ Hns), (Split_no_slash _ Hname). reflexivity.
Qed.

Section MoreProperties.

Context {World Cluster Clientset : Type}.
Variable env : Collaborators World Cluster Clientset.

(** *** What a reconciliation leaves of the registry *)

Lemma onCreateLoop_frame (provider : Provider World Cluster) (cluster : Cluster) :
  forall fuel m e st r st',
    onCreateLoop env fuel provider cluster m e st = Some (r, st') ->
    healthCache st' = healthCache st /\
    exists new, calls st' = calls st ++ new
                /\ Forall (fun c => isHealthLoopStart c = false) new.
Proof.
  induction fuel as [|fuel IH]; intros m e st r st' Hrun; simpl in Hrun;
    destruct (bool_decide _); unfold_prims; try discriminate;
    try (injection Hrun as <- <-; split; [done|];
         exists []; by rewrite app_nil_r).
  simpl in Hrun.
  destruct (OnCreate provider m cluster (world st)) as [[m1 e1] w1]. simpl in *.
  destruct (MachinesUpdate env m1 w1) as [[e2|] w2]; simpl in Hrun.
  - injection Hrun as <- <-. split; [done|]. simpl.
    eexists. rewrite <- app_assoc. split; [reflexivity|]. by repeat constructor.
  - apply IH in Hrun as [Hcache (new & Hcalls & Hall)]. simpl in *.
    split; [done|]. rewrite <- !app_assoc in Hcalls.
    eexists. split; [exact Hcalls|]. simpl. by repeat constructor.
Qed.

Lemma reconcile_frame (fuel : nat) (key : string) (m : Machine)
    (st : State World) (r : Machine * option error) (st' : State World) :
  reconcile env fuel key m st = Some (r, st') ->
  exists new,
    calls st' = calls st ++ new
    /\ healthCache st ⊆ healthCache st'
    /\ ((Phase (Status m) <> MachineRunning /\ Phase (Status m) <> MachineFailed)
        \/ Name m ∈ healthCache st ->
        healthCache st' = healthCache st
        /\ Forall (fun c => isHealthLoopStart c = false) new).
Proof.
  intros Hrun. unfold reconcile in Hrun.
  destruct (bool_decide (Phase (Status m) = MachineInitializing)).
  { unfold onCreate in Hrun. unfold_prims. simpl in Hrun.
    destruct (GetProvider env (SpecType (Spec m)) (world st))
      as [[provider|e] w1]; simpl in Hrun.
    - destruct (GetClusterByName env (ClusterName (Spec m)) w1)
        as [[cluster|e] w2]; simpl in Hrun.
      + apply onCreateLoop_frame in Hrun as [Hcache (new & Hcalls & Hall)].
        simpl in *. rewrite <- !app_assoc in Hcalls.
        eexists; split; [exact Hcalls|]. rewrite Hcache.
        split; [done|]. intros _. split; [done|]. simpl. by repeat constructor.
      + injection Hrun as <- <-. simpl. rewrite <- !app_assoc.
        eexists; split; [reflexivity|]. split; [done|]. intros _.
        split; [done|]. by repeat constructor.
    - injection Hrun as <- <-. simpl.
      eexists; split; [reflexivity|]. split; [done|]. intros _.
      split; [done|]. by repeat constructor. }
  destruct (bool_decide (Phase (Status m) = MachineRunning)
            || bool_decide (Phase (Status m) = MachineFailed)) eqn:Hstable.
  { unfold onUpdate, ensureStartHealthCheck in Hrun. unfold_prims.
    destruct (decide (Name m ∈ healthCache st)) as [Hin|Hout];
      [rewrite (bool_decide_eq_true_2 _ Hin) in Hrun
      |rewrite (bool_decide_eq_false_2 _ Hout) in Hrun]; simpl in Hrun;
      (destruct (GetProvider env (SpecType (Spec m)) (world st))
         as [[provider|e] w1]; simpl in Hrun;
       [destruct (GetClusterByName env (ClusterName (Spec m)) w1)
          as [[cluster|e] w2]; simpl in Hrun;
        [destruct (OnUpdate provider m cluster w2) as [[m1 e1] w3]; simpl in *;
         destruct (MachinesUpdate env m1 w3) as [[e2|] w4]; simpl in Hrun|]|]);
      injection Hrun as <- <-; simpl; rewrite <- ?app_assoc;
      eexists; (split; [reflexivity|]);
      (split; [first [done | apply union_subseteq_r]|]);
      intros [[Hr Hf]|Hreg];
      try (exfalso; apply orb_true_iff in Hstable as [H|H];
           apply bool_decide_eq_true_1 in H; contradiction);
      try contradiction;
      (split; [done|]); by repeat constructor. }
  destruct (bool_decide (Phase (Status m) = MachineTerminating)).
  { unfold_prims. simpl in Hrun.
    destruct (deleterDelete env key (world st)) as [[e|] w1]; simpl in Hrun;
      injection Hrun as <- <-; simpl;
      eexists; (split; [reflexivity|]); (split; [done|]); intros _;
      (split; [done|]); by repeat constructor. }
  unfold_prims. injection Hrun as <- <-. simpl.
  exists []. rewrite app_nil_r. split; [done|]. split; [done|]. intros _.
  split; [done|]. constructor.
Qed.

(** X1: a reconciliation never removes a key from the health-watch
    registry; and unless the machine is Running or Failed with its name
    not yet registered, it leaves the registry exactly as it was and
    starts no health loop. *)
Theorem reconcile_registry_only_grows (fuel : nat) (key : string) (m : Machine)
    (st : State World) (r : Machine * option error) (st' : State World) :
  reconcile env fuel key m st = Some (r, st') ->
  healthCache st ⊆ healthCache st'
  /\ ((Phase (Status m) <> MachineRunning /\ Phase (Status m) <> MachineFailed)
      \/ Name m ∈ healthCache st ->
      healthCache st' = healthCache st
      /\ Forall (fun c => isHealthLoopStart c = false) (callsSince st st')).
Proof.
  intros Hrun. destruct (reconcile_frame _ _ _ _ _ _ Hrun) as (new & Hcalls & Hsub & Hsame).
  split; [exact Hsub|]. intros Hcase. destruct (Hsame Hcase) as [Heq Hall].
  split; [exact Heq|]. unfold callsSince. by rewrite Hcalls, drop_calls_app.
Qed.

(** *** Informer callbacks, keys and the worker *)

(** Outside phase Initializing a reconciliation has no loop and always
    returns. *)
Lemma reconcile_returns_unless_initializing (fuel : nat) (key : string)
    (m : Machine) (st : State World) :
  Phase (Status m) <> MachineInitializing ->
  exists r st' new,
    reconcile env fuel key m st = Some (r, st')
    /\ calls st' = calls st ++ new.
Proof.
  intros Hphase. unfold reconcile.
  rewrite (bool_decide_eq_false_2 _ Hphase).
  destruct (bool_decide (Phase (Status m) = MachineRunning)
            || bool_decide (Phase (Status m) = MachineFailed)).
  { unfold onUpdate, ensureStartHealthCheck. unfold_prims.
    destruct (bool_decide (Name m ∈ healthCache st)); simpl;
      (destruct (GetProvider env (SpecType (Spec m)) (world st))
         as [[provider|e] w1]; simpl;
       [destruct (GetClusterByName env (ClusterName (Spec m)) w1)
          as [[cluster|e] w2]; simpl;
        [destruct (OnUpdate provider m cluster w2) as [[m1 e1] w3]; simpl;
         destruct (MachinesUpdate env m1 w3) as [[e2|] w4]; simpl|]|]);
      do 3 eexists; (split; [reflexivity|]); simpl;
      rewrite <- ?app_assoc; reflexivity. }
  destruct (bool_decide (Phase (Status m) = MachineTerminating)).
  { unfold_prims. simpl.
    destruct (deleterDelete env key (world st)) as [[e|] w1]; simpl;
      do 3 eexists; (split; [reflexivity|]); reflexivity. }
  unfold_prims. exists (m, None). eexists. exists [].
  split; [reflexivity|]. simpl. by rewrite app_nil_r.
Qed.

(** X2: the key the add callback puts on the queue leads back to the
    machine.  For a machine whose namespace and name contain no "/",
    [addMachine] makes one call, [queue.Add] on the machine's key, and
    leaves the world that [Add] leaves; [syncMachine] on that key asks the
    cache for the machine's bare name (the namespace part of the key is
    dropped): when that lookup fails it returns the lookup's error after
    this one call, and when it finds a machine outside phase Initializing
    it finishes with the lookup as its first call. *)
Theorem enqueued_key_is_looked_up_by_name (fuel : nat) (m : Machine)
    (st st2 : State World) :
  slashes (Namespace m) = 0 ->
  slashes (Name m) = 0 ->
  (exists st1,
      addMachine env m st = Some (tt, st1)
      /\ callsSince st st1
         = [CallQueueAdd (DeletionHandlingMetaNamespaceKeyFunc m).1]
      /\ world st1
         = queueAdd env (DeletionHandlingMetaNamespaceKeyFunc m).1 (world st)
      /\ healthCache st1 = healthCache st)
  /\ (forall e,
        (listerGet env (Name m) (world st2)).1 = inr e ->
        exists st3,
          syncMachine env fuel (DeletionHandlingMetaNamespaceKeyFunc m).1 st2
          = Some (Some e, st3)
          /\ callsSince st2 st3 = [CallListerGet (Name m)])
  /\ (forall found w,
        listerGet env (Name m) (world st2) = (inl found, w) ->
        Phase (Status found) <> MachineInitializing ->
        exists r st3 rest,
          syncMachine env fuel (DeletionHandlingMetaNamespaceKeyFunc m).1 st2
          = Some (r, st3)
          /\ callsSince st2 st3 = CallListerGet (Name m) :: rest).
Proof.
  intros Hns Hname. split; [|split].
  - unfold addMachine, enqueue, callsSince, DeletionHandlingMetaNamespaceKeyFunc.
    case_bool_decide; unfold_prims; simpl; eexists; (split; [reflexivity|]);
      simpl; by rewrite drop_calls_app.
  - intros e Hget. unfold syncMachine, callsSince.
    rewrite (SplitMetaNamespaceKey_of_key m Hns Hname).
    unfold_prims. simpl.
    destruct (listerGet env (Name m) (world st2)) as [r w1].
    simpl in Hget. subst r. simpl.
    destruct (IsNotFound (Some e)); simpl; eexists; (split; [reflexivity|]);
      simpl; by rewrite drop_calls_app.
  - intros found w Hget Hphase. unfold syncMachine, callsSince.
    rewrite (SplitMetaNamespaceKey_of_key m Hns Hname).
    unfold bind at 1. unfold call at 1. rewrite Hget. simpl.
    unfold bind at 1. unfold ret at 1. unfold bind at 1.
    match goal with
    | |- context [reconcile env fuel ?k found ?s] =>
        destruct (reconcile_returns_unless_initializing fuel k found s Hphase)
          as ([m' err] & s' & new & Hrec & Hcalls)
    end.
    rewrite Hrec. unfold_prims. simpl in *.
    do 3 eexists. split; [reflexivity|]. simpl.
    rewrite Hcalls, <- app_assoc, drop_calls_app. reflexivity.
Qed.

(** X3: a key with two or more "/" is rejected before anything is looked
    up: [syncMachine] returns an error (for an ASCII key, the key-format
    error with the key in Go's quoted form) and makes no collaborator
    call; world and registry are as they were. *)
Theorem syncMachine_rejects_malformed_key (fuel : nat) (key : string)
    (st : State World) :
  2 <= slashes key ->
  exists e st',
    syncMachine env fuel key st = Some (Some e, st')
    /\ calls st' = calls st
    /\ healthCache st' = healthCache st
    /\ world st' = world st
    /\ (isASCII key = true ->
        e = ErrOther ("unexpected key format: " +:+ Quote key)).
Proof.
  intros Hs. unfold syncMachine, SplitMetaNamespaceKey.
  pose proof (length_Split key) as Hlen.
  destruct (Split key) as [|a [|b [|c l]]]; simpl in Hlen; try lia;
    unfold_prims; do 2 eexists; split; reflexivity || done.
Qed.

(** X4: the worker step on a dequeued key.  Whenever [syncMachine] finishes
    for the key the queue handed out, the step reports true, calls
    [Forget] exactly when the sync returned nil and [AddRateLimited]
    otherwise, and in both cases ends with [Done] on the key; the world it
    leaves is the one these two queue operations produce, in that
    order. *)
Theorem processNextWorkItem_settles_key (fuel : nat) (st : State World)
    (key : string) (w : World) (r : option error) (st2 : State World) :
  queueGet env (world st) = (key, false, w) ->
  syncMachine env fuel key
    {| world := w; healthCache := healthCache st;
       calls := calls st ++ [CallQueueGet]; logs := logs st |}
  = Some (r, st2) ->
  exists st3,
    processNextWorkItem env fuel st = Some (true, st3)
    /\ callsSince st2 st3
       = [match r with
          | None => CallQueueForget key
          | Some _ => CallQueueAddRateLimited key
          end; CallQueueDone key]
    /\ world st3
       = queueDone env key
           (match r with
            | None => queueForget env key (world st2)
            | Some _ => queueAddRateLimited env key (world st2)
            end)
    /\ healthCache st3 = healthCache st2.
Proof.
  intros Hget Hsync. unfold processNextWorkItem, callsSince.
  unfold bind at 1. unfold call at 1. rewrite Hget. simpl.
  unfold bind at 1. rewrite Hsync. destruct r as [e|]; unfold_prims; simpl;
    eexists; (split; [reflexivity|]); simpl;
    rewrite <- ?app_assoc, drop_calls_app; done.
Qed.

(** X5: once the queue reports that it is shutting down, the worker returns
    at that dequeue: it syncs nothing and calls neither [Done], [Forget]
    nor [AddRateLimited]. *)
Theorem worker_stops_on_shutdown (fuel : nat) (st : State World) :
  (queueGet env (world st)).1.2 = true ->
  exists st',
    worker env (S fuel) st = Some (tt, st')
    /\ callsSince st st' = [CallQueueGet]
    /\ healthCache st' = healthCache st
    /\ logs st' = logs st.
Proof.
  intros Hquit. simpl. unfold processNextWorkItem, callsSince. unfold_prims.
  destruct (queueGet env (world st)) as [[key quit] w]. simpl in *. subst quit.
  simpl. eexists; split; [reflexivity|]. simpl. by rewrite drop_calls_app.
Qed.


(** *** Handlers: lookups that fail, and what is returned *)

(** X7: an unknown machine type ends the pass at the provider lookup.  For
    a machine in phase Initializing, Running or Failed whose type the
    registry rejects, [reconcile] returns the registry's error with the
    machine untouched; no cluster lookup, no hook and no remote update is
    made (for Running and Failed the health loop has been ensured
    first). *)
Theorem reconcile_unknown_type_is_returned (fuel : nat) (key : string)
    (m : Machine) (st : State World) (e : error) :
  Phase (Status m) = MachineInitializing
  \/ Phase (Status m) = MachineRunning \/ Phase (Status m) = MachineFailed ->
  (GetProvider env (SpecType (Spec m)) (world st)).1 = inr e ->
  exists st',
    reconcile env fuel key m st = Some ((m, Some e), st')
    /\ callsSince st st'
       = (if decide (Phase (Status m) = MachineInitializing) then []
          else if decide (Name m ∈ healthCache st) then []
               else [CallGoPollHealth (Name m)])
         ++ [CallGetProvider (SpecType (Spec m))].
Proof.
  intros Hphase Hprov. unfold reconcile, callsSince.
  destruct (decide (Phase (Status m) = MachineInitializing)) as [Hi|Hni].
  - rewrite (bool_decide_eq_true_2 _ Hi). unfold onCreate. unfold_prims.
    destruct (GetProvider env (SpecType (Spec m)) (world st)) as [p w1].
    simpl in Hprov. subst p. simpl.
    eexists; split; [reflexivity|]. simpl. by rewrite drop_calls_app.
  - rewrite (bool_decide_eq_false_2 _ Hni).
    assert (bool_decide (Phase (Status m) = MachineRunning)
            || bool_decide (Phase (Status m) = MachineFailed) = true) as ->.
    { destruct Hphase as [H|[H|H]]; [contradiction| |];
        rewrite (bool_decide_eq_true_2 _ H); [done|apply orb_true_r]. }
    unfold onUpdate, ensureStartHealthCheck. unfold_prims.
    destruct (decide (Name m ∈ healthCache st)) as [Hin|Hout];
      [rewrite (bool_decide_eq_true_2 _ Hin)
      |rewrite (bool_decide_eq_false_2 _ Hout)]; simpl;
      destruct (GetProvider env (SpecType (Spec m)) (world st)) as [p w1];
      simpl in Hprov; subst p; simpl;
      eexists; (split; [reflexivity|]); simpl;
      rewrite <- ?app_assoc, drop_calls_app; done.
Qed.

(** X8: a failing cluster lookup ends the pass before any hook.  When the
    provider is resolved but [GetClusterByName] fails, [reconcile] (phase
    Initializing, Running or Failed) returns that error with the machine
    untouched, and neither a hook nor a remote update is called. *)
Theorem reconcile_cluster_error_is_returned (fuel : nat) (key : string)
    (m : Machine) (st : State World) (provider : Provider World Cluster)
    (w1 : World) (e : error) :
  Phase (Status m) = MachineInitializing
  \/ Phase (Status m) = MachineRunning \/ Phase (Status m) = MachineFailed ->
  GetProvider env (SpecType (Spec m)) (world st) = (inl provider, w1) ->
  (GetClusterByName env (ClusterName (Spec m)) w1).1 = inr e ->
  exists st',
    reconcile env fuel key m st = Some ((m, Some e), st')
    /\ callsSince st st'
       = (if decide (Phase (Status m) = MachineInitializing) then []
          else if decide (Name m ∈ healthCache st) then []
               else [CallGoPollHealth (Name m)])
         ++ [CallGetProvider (SpecType (Spec m));
             CallGetClusterByName (ClusterName (Spec m))].
Proof.
  intros Hphase Hprov Hcl. unfold reconcile, callsSince.
  destruct (decide (Phase (Status m) = MachineInitializing)) as [Hi|Hni].
  - rewrite (bool_decide_eq_true_2 _ Hi). unfold onCreate. unfold_prims.
    rewrite Hprov. simpl.
    destruct (GetClusterByName env (ClusterName (Spec m)) w1) as [c w2].
    simpl in Hcl. subst c. simpl.
    eexists; split; [reflexivity|]. simpl.
    by rewrite <- ?app_assoc, drop_calls_app.
  - rewrite (bool_decide_eq_false_2 _ Hni).
    assert (bool_decide (Phase (Status m) = MachineRunning)
            || bool_decide (Phase (Status m) = MachineFailed) = true) as ->.
    { destruct Hphase as [H|[H|H]]; [contradiction| |];
        rewrite (bool_decide_eq_true_2 _ H); [done|apply orb_true_r]. }
    unfold onUpdate, ensureStartHealthCheck. unfold_prims.
    destruct (decide (Name m ∈ healthCache st)) as [Hin|Hout];
      [rewrite (bool_decide_eq_true_2 _ Hin)
      |rewrite (bool_decide_eq_false_2 _ Hout)]; simpl;
      rewrite Hprov; simpl;
      destruct (GetClusterByName env (ClusterName (Spec m)) w1) as [c w2];
      simpl in Hcl; subst c; simpl;
      eexists; (split; [reflexivity|]); simpl;
      rewrite <- ?app_assoc, drop_calls_app; done.
Qed.

(** X9: what [onUpdate] returns once provider and cluster are resolved: it
    runs the update hook once, sends the machine exactly as the hook left
    it in one remote update, and returns the error of that remote update;
    the error the hook itself returned does not reach the caller. *)
Theorem onUpdate_returns_update_error (m : Machine) (st : State World)
    (provider : Provider World Cluster) (w1 : World)
    (cluster : Cluster) (w2 : World) :
  GetProvider env (SpecType (Spec m)) (world st) = (inl provider, w1) ->
  GetClusterByName env (ClusterName (Spec m)) w1 = (inl cluster, w2) ->
  let hook := OnUpdate provider m cluster w2 in
  exists st',
    onUpdate env m st
    = Some ((hook.1.1, (MachinesUpdate env hook.1.1 hook.2).1), st')
    /\ callsSince st st'
       = (if decide (Name m ∈ healthCache st) then []
          else [CallGoPollHealth (Name m)])
         ++ [CallGetProvider (SpecType (Spec m));
             CallGetClusterByName (ClusterName (Spec m));
             CallOnUpdate m; CallUpdate hook.1.1]
    /\ world st' = (MachinesUpdate env hook.1.1 hook.2).2.
Proof.
  intros Hprov Hcl hook. subst hook.
  unfold onUpdate, ensureStartHealthCheck, callsSince. unfold_prims.
  destruct (decide (Name m ∈ healthCache st)) as [Hin|Hout];
    [rewrite (bool_decide_eq_true_2 _ Hin)
    |rewrite (bool_decide_eq_false_2 _ Hout)]; simpl;
    rewrite Hprov; simpl; rewrite Hcl; simpl;
    destruct (OnUpdate provider m cluster w2) as [[m1 e1] w3]; simpl;
    destruct (MachinesUpdate env m1 w3) as [[e2|] w4]; simpl;
    eexists; (split; [reflexivity|]); simpl;
    rewrite <- ?app_assoc, drop_calls_app; done.
Qed.


(** X11: the retry loop of [onCreate] has no bound of its own.  With a
    create hook that leaves an Initializing machine Initializing and a
    remote update that always succeeds, the loop does not return, however
    many iterations it is given. *)
Theorem onCreateLoop_never_returns_while_stuck
    (provider : Provider World Cluster) (cluster : Cluster) :
  (forall m w, Phase (Status m) = MachineInitializing ->
               Phase (Status (OnCreate provider m cluster w).1.1)
               = MachineInitializing) ->
  (forall m w, (MachinesUpdate env m w).1 = None) ->
  forall fuel m e st,
    Phase (Status m) = MachineInitializing ->
    onCreateLoop env fuel provider cluster m e st = None.
Proof.
  intros Hstuck Hupd. induction fuel as [|fuel IH]; intros m e st Hphase;
    simpl; rewrite (bool_decide_eq_true_2 _ Hphase); [reflexivity|].
  unfold_prims. simpl.
  pose proof (Hstuck m (world st) Hphase) as Hstay.
  destruct (OnCreate provider m cluster (world st)) as [[m1 e1] w1]. simpl in *.
  pose proof (Hupd m1 w1) as Hok.
  destruct (MachinesUpdate env m1 w1) as [u w2]. simpl in *. subst u.
  by apply IH.
Qed.

(** *** Health scheduler: patch errors, skipped ticks, the life of a loop *)

(** X12: how [checkHealth] ends.  It computes the patch from the machine
    as it was read to the machine as probed, in the world the probe left.
    If that computation fails with an error, it returns this error wrapped
    ("GetPatchBytes error: ") and sends no patch.  Otherwise it sends
    exactly the computed bytes under the machine's name as its last call,
    and returns nil when the store accepted them, or the store's error
    wrapped ("update health status error: "). *)
Theorem checkHealth_reports_patch_failures (m : Machine) (st : State World) :
  let m' := SetCondition (probeCondition (probeError env m (world st)))
              (setPhase (probePhase (probeError env m (world st))) m) in
  let patch := GetPatchBytes env m m' (probeWorld env m (world st)) in
  exists st',
    match patch.1 with
    | inr e =>
        checkHealth env m st
        = Some ((m', Some (ErrWrap "GetPatchBytes error: " e)), st')
        /\ callsSince st st'
           = probeCalls env m (world st) ++ [CallGetPatchBytes m m']
        /\ world st' = patch.2
    | inl bs =>
        checkHealth env m st
        = Some ((m', match (MachinesPatch env (Name m) bs patch.2).1 with
                     | Some e => Some (ErrWrap "update health status error: " e)
                     | None => None
                     end), st')
        /\ callsSince st st'
           = probeCalls env m (world st)
             ++ [CallGetPatchBytes m m'; CallPatch (Name m) bs]
        /\ world st' = (MachinesPatch env (Name m) bs patch.2).2
    end.
Proof.
  unfold checkHealth, callsSince, probeError, probeWorld, probeCalls.
  unfold_prims. simpl.
  destruct (BuildExternalClientSetWithName env (ClusterName (Spec m)) (world st))
    as [[cs|e] w1]; simpl;
    [destruct (NodesGet env cs (IP (Spec m)) w1) as [[e|] w2]; simpl|];
    (match goal with |- context [GetPatchBytes env ?a ?b ?w] =>
       destruct (GetPatchBytes env a b w) as [[bs|pe] w3] end); simpl;
    try (match goal with |- context [MachinesPatch env ?a ?b ?w] =>
       destruct (MachinesPatch env a b w) as [[ue|] w4] end); simpl;
    eexists; (split; [reflexivity|]); simpl;
    rewrite <- ?app_assoc, drop_calls_app; simpl; done.
Qed.

Lemma checkHealth_starts_with_client (m : Machine) (st : State World) :
  exists r st' rest,
    checkHealth env m st = Some (r, st')
    /\ calls st'
       = calls st ++ CallBuildExternalClientSet (ClusterName (Spec m)) :: rest
    /\ healthCache st' = healthCache st.
Proof.
  unfold checkHealth. unfold_prims. simpl.
  destruct (BuildExternalClientSetWithName env (ClusterName (Spec m)) (world st))
    as [[cs|e] w1]; simpl;
    [destruct (NodesGet env cs (IP (Spec m)) w1) as [[e|] w2]; simpl|];
    (match goal with |- context [GetPatchBytes env ?a ?b ?w] =>
       destruct (GetPatchBytes env a b w) as [[bs|pe] w3] end); simpl;
    try (match goal with |- context [MachinesPatch env ?a ?b ?w] =>
       destruct (MachinesPatch env a b w) as [[ue|] w4] end); simpl;
    do 3 eexists; (split; [reflexivity|]); simpl;
    rewrite <- ?app_assoc; simpl; split; reflexivity.
Qed.

(** X13: a tick probes only a machine it found in phase Running or Failed.
    For such a machine the tick goes on, after the lookup, to build the
    client for the machine's cluster; for a machine in any other phase,
    and for any lookup error, the lookup is the only call of the tick. *)
Theorem watchHealth_probes_only_stable_machines (key : string) (st : State World) :
  exists r st',
    watchHealth env key st = Some (r, st')
    /\ match (listerGet env key (world st)).1 with
       | inl m =>
           if decide (Phase (Status m) = MachineRunning
                      \/ Phase (Status m) = MachineFailed)
           then exists rest,
               callsSince st st'
               = CallListerGet key
                 :: CallBuildExternalClientSet (ClusterName (Spec m)) :: rest
           else callsSince st st' = [CallListerGet key] /\ logs st' = logs st
       | inr _ => callsSince st st' = [CallListerGet key]
       end.
Proof.
  unfold watchHealth, callsSince. unfold_prims. simpl.
  destruct (listerGet env key (world st)) as [[m|e] w] eqn:Hget; simpl.
  - destruct (decide (Phase (Status m) = MachineRunning
                      \/ Phase (Status m) = MachineFailed)) as [Hs|Hn].
    + assert (negb (bool_decide (Phase (Status m) = MachineRunning)
                    || bool_decide (Phase (Status m) = MachineFailed)) = false)
        as ->.
      { destruct Hs as [H|H]; rewrite (bool_decide_eq_true_2 _ H); simpl;
          [done|by rewrite orb_true_r]. }
      match goal with |- context [checkHealth env m ?s] =>
        destruct (checkHealth_starts_with_client m s)
          as ([m' err] & st' & rest & Hrun & Hcalls & _)
      end.
      rewrite Hrun. simpl in *.
      destruct err; simpl; do 2 eexists; (split; [reflexivity|]); simpl;
        rewrite Hcalls, <- app_assoc, drop_calls_app; by eexists.
    + assert (negb (bool_decide (Phase (Status m) = MachineRunning)
                    || bool_decide (Phase (Status m) = MachineFailed)) = true)
        as ->.
      { rewrite !bool_decide_eq_false_2; [done|tauto|tauto]. }
      do 2 eexists; split; [reflexivity|]. simpl. by rewrite drop_calls_app.
  - destruct (IsNotFound (Some e)); simpl; do 2 eexists;
      (split; [reflexivity|]); simpl; by rewrite drop_calls_app.
Qed.

Lemma watchHealth_continues (key : string) (st : State World) :
  (forall e, (listerGet env key (world st)).1 = inr e ->
             IsNotFound (Some e) = false) ->
  exists st', watchHealth env key st = Some ((false, None), st').
Proof.
  intros Hfound. unfold watchHealth. unfold_prims. simpl.
  destruct (listerGet env key (world st)) as [[m|e] w]; simpl in *.
  - destruct (negb _); [by eexists|].
    match goal with |- context [checkHealth env m ?s] =>
      destruct (checkHealth_starts_with_client m s)
        as ([m' err] & st' & rest & Hrun & _)
    end.
    rewrite Hrun. destruct err; simpl; by eexists.
  - rewrite (Hfound e eq_refl). by eexists.
Qed.

(** X14: the health loop never ends by itself.  As long as the cache lookup
    of the key does not report not-found (whatever the probes, the patch
    and the machine's phase do), [wait.PollImmediateInfinite] over
    [watchHealth] does not return, however many ticks it is given. *)
Theorem health_loop_runs_while_machine_exists (key : string) :
  (forall w e, (listerGet env key w).1 = inr e -> IsNotFound (Some e) = false) ->
  forall fuel st, PollImmediateInfinite fuel (watchHealth env key) st = None.
Proof.
  intros Hfound. induction fuel as [|fuel IH]; intros st; [reflexivity|].
  simpl. unfold bind at 1.
  destruct (watchHealth_continues key st (Hfound (world st))) as [st' ->].
  simpl. apply IH.
Qed.

(** X16: a loop started for a key whose machine is already gone.  From a
    state where the key is not registered and the lookup reports
    not-found, the loop ends at its first tick in both orders the source
    allows.  When the tick takes effect after [healthCache.Add], the
    registry is again what it was.  When it takes effect between the [go]
    statement and the [Add], the key stays registered although its loop
    has ended, and every later [ensureStartHealthCheck] for the key starts
    nothing. *)
Theorem health_loop_for_missing_machine_both_orders (fuel : nat)
    (key : string) (st : State World) (e : error) :
  key ∉ healthCache st ->
  (listerGet env key (world st)).1 = inr e ->
  IsNotFound (Some e) = true ->
  (exists st1,
      ensureStartHealthCheck key st = Some (tt, st1)
      /\ ensureStartHealthCheckRacing (ret tt) key st = Some (Some tt, st1))
  /\ (exists st1 st2,
        ensureStartHealthCheck key st = Some (tt, st1)
        /\ PollImmediateInfinite (S fuel) (watchHealth env key) st1
           = Some (None, st2)
        /\ healthCache st2 = healthCache st
        /\ callsSince st st2 = [CallGoPollHealth key; CallListerGet key])
  /\ (exists st2,
        ensureStartHealthCheckRacing
          (PollImmediateInfinite (S fuel) (watchHealth env key)) key st
        = Some (Some None, st2)
        /\ key ∈ healthCache st2
        /\ callsSince st st2 = [CallGoPollHealth key; CallListerGet key]
        /\ ensureStartHealthCheck key st2 = Some (tt, st2)).
Proof.
  intros Hout Hget Hnf.
  destruct (listerGet env key (world st)) as [r w] eqn:Hlook.
  simpl in Hget. subst r.
  unfold ensureStartHealthCheckRacing, ensureStartHealthCheck.
  split; [|split].
  - unfold_prims. rewrite (bool_decide_eq_false_2 _ Hout). simpl.
    eexists. split; reflexivity.
  - unfold_prims. rewrite (bool_decide_eq_false_2 _ Hout). simpl.
    eexists; eexists; split; [reflexivity|].
    unfold watchHealth, callsSince. unfold_prims. simpl.
    rewrite Hlook. simpl.
    rewrite Hnf. simpl. split; [reflexivity|]. simpl. split.
    + apply set_eq. intros x. rewrite elem_of_difference, elem_of_union,
        elem_of_singleton. split; [tauto|]. intros Hx. split; [tauto|].
      intros ->. contradiction.
    + by rewrite <- app_assoc, drop_calls_app.
  - simpl. unfold watchHealth, callsSince. unfold_prims.
    rewrite (bool_decide_eq_false_2 _ Hout). simpl.
    rewrite Hlook. simpl. rewrite Hnf. simpl.
    eexists. split; [reflexivity|]. simpl.
    assert (key ∈ {[key]} ∪ healthCache st ∖ {[key]}) as Hin.
    { apply elem_of_union_l. by apply elem_of_singleton. }
    split; [exact Hin|]. split.
    + by rewrite <- app_assoc, drop_calls_app.
    + by rewrite (bool_decide_eq_true_2 _ Hin).
Qed.

End MoreProperties.

(** ** The further properties at concrete cases *)

(** X1 at the Running machine "m1" while "m1" and "m9" are registered: the
    reconciliation returns, both keys are still registered, the registry
    is what it was and no loop was started. *)
Lemma reconcile_registry_only_grows_witness :
  exists r st',
    reconcile (Cases.okEnv Cases.noMachines) 0 "m1"
      (Cases.machine "" "m1" "dummy" MachineRunning) Cases.watching
    = Some (r, st')
    /\ healthCache Cases.watching ⊆ healthCache st'
    /\ healthCache st' = healthCache Cases.watching
    /\ Forall (fun c => isHealthLoopStart c = false)
              (callsSince Cases.watching st').
Proof.
  destruct (reconcile (Cases.okEnv Cases.noMachines) 0 "m1"
              (Cases.machine "" "m1" "dummy" MachineRunning) Cases.watching)
    as [[r st']|] eqn:Hrun; [|vm_compute in Hrun; discriminate].
  exists r, st'. split; [reflexivity|].
  destruct (reconcile_registry_only_grows (Cases.okEnv Cases.noMachines) 0 "m1"
              (Cases.machine "" "m1" "dummy" MachineRunning) Cases.watching
              r st' Hrun) as [Hsub Hsame].
  split; [exact Hsub|]. apply Hsame. right. simpl.
  apply elem_of_union_l. by apply elem_of_singleton.
Defined.

(** X2 at the Running machine ns/m1 held by the cache, with a queue that
    counts: the add callback leaves one [Add] in the world, and the sync
    of the key ns/m1 finishes after looking up "m1". *)
Lemma enqueued_key_is_looked_up_by_name_witness :
  (exists st1,
      addMachine
        (Cases.countingQueue
           (Cases.okEnv (Cases.cacheOf (Cases.machine "ns" "m1" "dummy" MachineRunning))))
        (Cases.machine "ns" "m1" "dummy" MachineRunning) Cases.start
      = Some (tt, st1)
      /\ callsSince Cases.start st1 = [CallQueueAdd "ns/m1"]
      /\ world st1 = 1)
  /\ (exists r st3 rest,
        syncMachine
          (Cases.countingQueue
             (Cases.okEnv (Cases.cacheOf (Cases.machine "ns" "m1" "dummy" MachineRunning))))
          0 "ns/m1" Cases.start
        = Some (r, st3)
        /\ callsSince Cases.start st3 = CallListerGet "m1" :: rest).
Proof.
  destruct (enqueued_key_is_looked_up_by_name
              (Cases.countingQueue
                 (Cases.okEnv
                    (Cases.cacheOf (Cases.machine "ns" "m1" "dummy" MachineRunning))))
              0 (Cases.machine "ns" "m1" "dummy" MachineRunning)
              Cases.start Cases.start eq_refl eq_refl)
    as [(st1 & Hadd & Hcalls & Hworld & _) [_ Hfound]].
  split.
  - exists st1. repeat split; assumption.
  - apply (Hfound (Cases.machine "ns" "m1" "dummy" MachineRunning) 0 eq_refl).
    simpl. discriminate.
Defined.

(** X3 at the key a/b/c: the error text carries the key in double
    quotes. *)
Lemma syncMachine_rejects_malformed_key_witness :
  exists st',
    syncMachine (Cases.okEnv Cases.noMachines) 0 "a/b/c" Cases.start
    = Some (Some (ErrOther
                    ("unexpected key format: "
                     +:+ String doubleQuote ("a/b/c" +:+ String doubleQuote ""))),
            st')
    /\ calls st' = calls Cases.start
    /\ healthCache st' = healthCache Cases.start
    /\ world st' = world Cases.start.
Proof.
  destruct (syncMachine_rejects_malformed_key (Cases.okEnv Cases.noMachines) 0
              "a/b/c" Cases.start ltac:(simpl; lia))
    as (e & st' & Hrun & Hcalls & Hcache & Hworld & Htext).
  exists st'. rewrite (Htext eq_refl) in Hrun. repeat split; assumption.
Defined.

(** X4 at the key "m1" with no such machine in the cache and a queue that
    counts: the sync fails, so the world shows one [AddRateLimited] and
    one [Done], and no [Forget]. *)
Lemma processNextWorkItem_settles_key_witness :
  exists st3,
    processNextWorkItem (Cases.countingQueue (Cases.okEnv Cases.noMachines)) 0
      Cases.start
    = Some (true, st3)
    /\ callsSince
         {| world := 0; healthCache := ∅;
            calls := [CallQueueGet; CallListerGet "m1"];
            logs := ["Machine has been deleted";
                     "unable to retrieve machine m1 from store: machine m1 not found";
                     "Finished syncing machine"] |} st3
       = [CallQueueAddRateLimited "m1"; CallQueueDone "m1"]
    /\ world st3 = 1100
    /\ healthCache st3 = ∅.
Proof.
  apply (processNextWorkItem_settles_key
           (Cases.countingQueue (Cases.okEnv Cases.noMachines)) 0
           Cases.start "m1" 0 (Some (ErrNotFound "machine m1 not found")));
    reflexivity.
Defined.

Lemma worker_stops_on_shutdown_witness :
  exists st',
    worker Cases.shutdownEnv 3 Cases.start = Some (tt, st')
    /\ callsSince Cases.start st' = [CallQueueGet]
    /\ healthCache st' = healthCache Cases.start
    /\ logs st' = logs Cases.start.
Proof.
  apply (worker_stops_on_shutdown Cases.shutdownEnv 2 Cases.start). reflexivity.
Defined.


Lemma reconcile_unknown_type_is_returned_witness :
  exists st',
    reconcile (Cases.okEnv Cases.noMachines) 0 "m1"
      (Cases.machine "" "m1" "other" MachineInitializing) Cases.start
    = Some ((Cases.machine "" "m1" "other" MachineInitializing,
             Some (ErrOther "machine provider other not found")), st')
    /\ callsSince Cases.start st'
       = (if decide (Phase (Status (Cases.machine "" "m1" "other" MachineInitializing))
                     = MachineInitializing) then []
          else if decide (Name (Cases.machine "" "m1" "other" MachineInitializing)
                          ∈ healthCache Cases.start) then []
               else [CallGoPollHealth
                       (Name (Cases.machine "" "m1" "other" MachineInitializing))])
         ++ [CallGetProvider
               (SpecType (Spec (Cases.machine "" "m1" "other" MachineInitializing)))].
Proof.
  apply (reconcile_unknown_type_is_returned (Cases.okEnv Cases.noMachines) 0 "m1"
           (Cases.machine "" "m1" "other" MachineInitializing) Cases.start
           (ErrOther "machine provider other not found")).
  - left. reflexivity.
  - reflexivity.
Defined.

Lemma reconcile_cluster_error_is_returned_witness :
  exists st',
    reconcile Cases.noClusterEnv 0 "m1"
      (Cases.machine "" "m1" "dummy" MachineInitializing) Cases.start
    = Some ((Cases.machine "" "m1" "dummy" MachineInitializing,
             Some (ErrOther "cluster cls-1 not found")), st')
    /\ callsSince Cases.start st'
       = (if decide (Phase (Status (Cases.machine "" "m1" "dummy" MachineInitializing))
                     = MachineInitializing) then []
          else if decide (Name (Cases.machine "" "m1" "dummy" MachineInitializing)
                          ∈ healthCache Cases.start) then []
               else [CallGoPollHealth
                       (Name (Cases.machine "" "m1" "dummy" MachineInitializing))])
         ++ [CallGetProvider
               (SpecType (Spec (Cases.machine "" "m1" "dummy" MachineInitializing)));
             CallGetClusterByName
               (ClusterName (Spec (Cases.machine "" "m1" "dummy" MachineInitializing)))].
Proof.
  apply (reconcile_cluster_error_is_returned Cases.noClusterEnv 0 "m1"
           (Cases.machine "" "m1" "dummy" MachineInitializing) Cases.start
           Cases.promptProvider 0 (ErrOther "cluster cls-1 not found")).
  - left. reflexivity.
  - reflexivity.
  - reflexivity.
Defined.

Lemma onUpdate_returns_update_error_witness :
  (OnUpdate Cases.stuckProvider
     (Cases.machine "" "m1" "dummy" MachineRunning) tt 0).1.2
  = Some (ErrOther "update step failed")
  /\ exists st',
      onUpdate (Cases.stuckEnv Cases.noMachines)
        (Cases.machine "" "m1" "dummy" MachineRunning) Cases.start
      = Some ((Cases.machine "" "m1" "dummy" MachineRunning, None), st').
Proof.
  split; [reflexivity|].
  destruct (onUpdate_returns_update_error (Cases.stuckEnv Cases.noMachines)
              (Cases.machine "" "m1" "dummy" MachineRunning) Cases.start
              Cases.stuckProvider 0 tt 0 eq_refl eq_refl) as (st' & Hrun & _).
  exists st'. exact Hrun.
Defined.


Lemma onCreateLoop_never_returns_while_stuck_witness :
  onCreateLoop (Cases.stuckEnv Cases.noMachines) 7 Cases.stuckProvider tt
    (Cases.machine "" "m1" "dummy" MachineInitializing) None Cases.start
  = None.
Proof.
  apply (onCreateLoop_never_returns_while_stuck (Cases.stuckEnv Cases.noMachines)
           Cases.stuckProvider tt).
  - intros m w H. exact H.
  - intros m w. reflexivity.
  - reflexivity.
Defined.

Lemma health_loop_runs_while_machine_exists_witness :
  PollImmediateInfinite 4
    (watchHealth
       (Cases.okEnv (Cases.cacheOf (Cases.machine "" "m1" "dummy" MachineRunning)))
       "m1") Cases.start
  = None.
Proof.
  apply (health_loop_runs_while_machine_exists
           (Cases.okEnv (Cases.cacheOf (Cases.machine "" "m1" "dummy" MachineRunning)))
           "m1").
  intros w e H. vm_compute in H. discriminate.
Defined.

Lemma health_loop_ends_on_not_found_witness :
  exists st',
    PollImmediateInfinite 3 (watchHealth (Cases.okEnv Cases.noMachines) "m1")
      Cases.start
    = Some (None, st')
    /\ callsSince Cases.start st' = [CallListerGet "m1"]
    /\ "m1" ∉ healthCache st'.
Proof.
  apply (health_loop_ends_on_not_found (Cases.okEnv Cases.noMachines) 2 "m1"
           Cases.start (ErrNotFound "machine m1 not found")); reflexivity.
Defined.

(** X16 at the key "m1" with no such machine in the cache: after the
    [Add] the tick empties the registry again; before the [Add] it leaves
    "m1" registered with no loop behind it. *)
Lemma health_loop_for_missing_machine_witness :
  (exists st1 st2,
      ensureStartHealthCheck "m1" Cases.start = Some (tt, st1)
      /\ PollImmediateInfinite 3 (watchHealth (Cases.okEnv Cases.noMachines) "m1") st1
         = Some (None, st2)
      /\ healthCache st2 = healthCache Cases.start
      /\ callsSince Cases.start st2 = [CallGoPollHealth "m1"; CallListerGet "m1"])
  /\ (exists st2,
        ensureStartHealthCheckRacing
          (PollImmediateInfinite 3 (watchHealth (Cases.okEnv Cases.noMachines) "m1"))
          "m1" Cases.start
        = Some (Some None, st2)
        /\ "m1" ∈ healthCache st2
        /\ callsSince Cases.start st2 = [CallGoPollHealth "m1"; CallListerGet "m1"]
        /\ ensureStartHealthCheck "m1" st2 = Some (tt, st2)).
Proof.
  apply (health_loop_for_missing_machine_both_orders
           (Cases.okEnv Cases.noMachines) 2 "m1" Cases.start
           (ErrNotFound "machine m1 not found")).
  - simpl. apply not_elem_of_empty.
  - reflexivity.
  - reflexivity.
Defined.
